(** * Litra driver: a shallow embedding of [dist/commonjs/driver.js]

    The driver finds a Logitech Litra light among the HID devices of the
    machine and sends it fixed-length output reports: power on/off,
    colour temperature and brightness, in absolute units or as a
    percentage of the range of the device type.

    Modelling choices, all local to this file:
    - a JavaScript [number] is an exact rational ([Q]); the not-a-number
      and infinite values are left out.  The integer literals of the
      bounds tables are kept in [Z] and injected where the code compares
      them with a number supplied by the caller;
    - [throw 'text'] is a completion [Threw text]; the thrown value is
      the very string of the source;
    - the HID layer ([node-hid]) is external.  A handle is identified by
      the path it was opened on, and [hid.write] appends the report to
      a trace of writes, which is the state every driver function
      threads;
    - [./utils] is imported by the driver but is a separate file, so the
      driver is written against an interface ([Utils]) and the three
      helpers are given afterwards, from the specification. *)

From Stdlib Require Import ZArith QArith Qround Bool String List Lqa.
From Stdlib Require Import DecimalString.
Import ListNotations.

Open Scope Q_scope.

(** ** JavaScript numbers and the few built-ins the driver calls *)

Module JS.

Definition number : Type := Q.

(** [x < y] and [x > y] on numbers. *)
Definition lt (x y : number) : bool := negb (Qle_bool y x).
Definition gt (x y : number) : bool := lt y x.

(** [x === y] on numbers. *)
Definition strict_eq (x y : number) : bool := Qeq_bool x y.

(** [Number.isInteger(x)]. *)
Definition Number_isInteger (x : number) : bool :=
  Qeq_bool (inject_Z (Qfloor x)) x.

(** [Math.round(x)]: the nearest integer, a tie going up. *)
Definition Math_round (x : number) : number :=
  inject_Z (Qfloor (x + (1 # 2))).

(** [`${n}`] for an integer [n]: its decimal digits. *)
Definition toString (n : Z) : string :=
  NilZero.string_of_int (Z.to_int n).

(** [array.includes(x)] on an array of integers. *)
Definition includes (array : list Z) (x : Z) : bool :=
  existsb (Z.eqb x) array.

End JS.

Import JS.

(** ** Completions and the trace of writes *)

(** A report is the array handed to [hid.write]. *)
Definition report : Type := list number.

(** The handle [new HID(path)]. *)
Record HID : Type := { hid_path : string }.

Definition HID_new (path : string) : HID := {| hid_path := path |}.

(** Every report written so far, oldest first, with the path of the
    handle it went through. *)
Definition World : Type := list (string * report).

Inductive completion (A : Type) : Type :=
| Returned (a : A)
| Threw (msg : string).

Arguments Returned {A} a.
Arguments Threw {A} msg.

Definition M (A : Type) : Type := World -> completion A * World.

Definition ret {A : Type} (a : A) : M A := fun w => (Returned a, w).

Definition throw {A : Type} (msg : string) : M A := fun w => (Threw msg, w).

Definition bind {A B : Type} (c : M A) (k : A -> M B) : M B :=
  fun w =>
    match c w with
    | (Returned a, w') => k a w'
    | (Threw msg, w') => (Threw msg, w')
    end.

Notation "x <- c ;; k" := (bind c (fun x => k))
  (at level 61, c at next level, right associativity).

(** [hid.write(report)]. *)
Definition HID_write (hid : HID) (r : report) : M unit :=
  fun w => (Returned tt, w ++ [(hid_path hid, r)]).

(** ** The data of the driver *)

Inductive DeviceType : Type :=
| LitraGlow
| LitraBeam.

Definition VENDOR_ID : Z := 0x046d.
Definition PRODUCT_IDS : list Z := [0xc900; 0xc901]%Z.
Definition USAGE_PAGE : Z := 0xff43.

Definition MINIMUM_BRIGHTNESS_IN_LUMEN_BY_DEVICE_TYPE (t : DeviceType) : Z :=
  match t with
  | LitraGlow => 20
  | LitraBeam => 30
  end.

Definition MAXIMUM_BRIGHTNESS_IN_LUMEN_BY_DEVICE_TYPE (t : DeviceType) : Z :=
  match t with
  | LitraGlow => 250
  | LitraBeam => 400
  end.

Definition MINIMUM_TEMPERATURE_IN_KELVIN_BY_DEVICE_TYPE (t : DeviceType) : Z :=
  match t with
  | LitraGlow => 2700
  | LitraBeam => 2700
  end.

Definition MAXIMUM_TEMPERATURE_IN_KELVIN_BY_DEVICE_TYPE (t : DeviceType) : Z :=
  match t with
  | LitraGlow => 6500
  | LitraBeam => 6500
  end.

(** What [findDevice] returns on a match. *)
Record Device : Type := { type : DeviceType; hid : HID }.

(** An entry of [HID.devices()], with the fields the driver reads. *)
Record DeviceInfo : Type :=
  { vendorId : Z; productId : Z; usagePage : Z; path : string }.

(** The interface of [./utils] as the driver uses it. *)
Class Utils : Type :=
  { padRight : list number -> nat -> number -> list number;
    integerToBytes : number -> list number;
    percentageWithinRange : number -> number -> number -> number }.

(** ** The driver *)

Section Driver.

Context {utils_1 : Utils}.

Definition getDeviceTypeByProductId (productId : Z) : M DeviceType :=
  if (productId =? 0xc900)%Z then ret LitraGlow
  else if (productId =? 0xc901)%Z then ret LitraBeam
  else throw "Unknown device type".

Definition getMinimumBrightnessInLumenForDevice (device : Device) : Z :=
  MINIMUM_BRIGHTNESS_IN_LUMEN_BY_DEVICE_TYPE (type device).

Definition getMaximumBrightnessInLumenForDevice (device : Device) : Z :=
  MAXIMUM_BRIGHTNESS_IN_LUMEN_BY_DEVICE_TYPE (type device).

Definition getMinimumTemperatureInKelvinForDevice (device : Device) : Z :=
  MINIMUM_TEMPERATURE_IN_KELVIN_BY_DEVICE_TYPE (type device).

Definition getMaximumTemperatureInKelvinForDevice (device : Device) : Z :=
  MAXIMUM_TEMPERATURE_IN_KELVIN_BY_DEVICE_TYPE (type device).

(** [devices] is the result of [HID.devices()]. *)
Definition findDevice (devices : list DeviceInfo) : M (option Device) :=
  let matchingDevice :=
    find (fun device =>
            (vendorId device =? VENDOR_ID)%Z
            && includes PRODUCT_IDS (productId device)
            && (usagePage device =? USAGE_PAGE)%Z) devices in
  match matchingDevice with
  | Some matchingDevice =>
      t <- getDeviceTypeByProductId (productId matchingDevice) ;;
      ret (Some {| type := t; hid := HID_new (path matchingDevice) |})
  | None => ret None
  end.

Definition turnOn (device : Device) : M unit :=
  HID_write (hid device) (padRight [0x11; 0xff; 0x04; 0x1c; 0x01] 20 0x00).

Definition turnOff (device : Device) : M unit :=
  HID_write (hid device) (padRight [0x11; 0xff; 0x04; 0x1c; 0x00] 20 0x00).

Definition setTemperatureInKelvin
    (device : Device) (temperatureInKelvin : number) : M unit :=
  if negb (Number_isInteger temperatureInKelvin) then
    throw "Provided temperature must be an integer"
  else
    let minimumTemperature := getMinimumTemperatureInKelvinForDevice device in
    let maximumTemperature := getMaximumTemperatureInKelvinForDevice device in
    if lt temperatureInKelvin (inject_Z minimumTemperature)
       || gt temperatureInKelvin (inject_Z maximumTemperature)
    then
      throw ("Provided temperature must be between "
               ++ toString minimumTemperature ++ " and "
               ++ toString maximumTemperature ++ " for this device")
    else
      HID_write (hid device)
        (padRight ([0x11; 0xff; 0x04; 0x9c]
                     ++ integerToBytes temperatureInKelvin) 20 0x00).

Definition setTemperaturePercentage
    (device : Device) (temperaturePercentage : number) : M unit :=
  if lt temperaturePercentage 0 || gt temperaturePercentage 100 then
    throw "Percentage must be between 0 and 100"
  else
    let minimumTemperature := getMinimumTemperatureInKelvinForDevice device in
    let maximumTemperature := getMaximumTemperatureInKelvinForDevice device in
    setTemperatureInKelvin device
      (if strict_eq temperaturePercentage 0
       then inject_Z minimumTemperature
       else percentageWithinRange temperaturePercentage
              (inject_Z minimumTemperature) (inject_Z maximumTemperature)).

Definition setBrightnessInLumen
    (device : Device) (brightnessInLumen : number) : M unit :=
  if negb (Number_isInteger brightnessInLumen) then
    throw "Provided brightness must be an integer"
  else
    let minimumBrightness := getMinimumBrightnessInLumenForDevice device in
    let maximumBrightness := getMaximumBrightnessInLumenForDevice device in
    if lt brightnessInLumen (inject_Z minimumBrightness)
       || gt brightnessInLumen (inject_Z maximumBrightness)
    then
      throw ("Provided brightness must be between "
               ++ toString minimumBrightness ++ " and "
               ++ toString maximumBrightness ++ " for this device")
    else
      HID_write (hid device)
        (padRight [0x11; 0xff; 0x04; 0x4c; 0x00; brightnessInLumen] 20 0x00).

Definition setBrightnessPercentage
    (device : Device) (brightnessPercentage : number) : M unit :=
  if lt brightnessPercentage 0 || gt brightnessPercentage 100 then
    throw "Percentage must be between 0 and 100"
  else
    let minimumBrightness := getMinimumBrightnessInLumenForDevice device in
    let maximumBrightness := getMaximumBrightnessInLumenForDevice device in
    setBrightnessInLumen device
      (if strict_eq brightnessPercentage 0
       then inject_Z minimumBrightness
       else percentageWithinRange brightnessPercentage
              (inject_Z minimumBrightness) (inject_Z maximumBrightness)).

End Driver.

(** ** The helpers of [./utils] *)

Module SpecUtils.

(** Modelled from the spec: [padRight] of [utils.js], which is not
    among the sources.  The report is "right-padded with zero bytes to
    a fixed total length of 20 bytes": the array, then the padding
    value as many times as the array is short of [length]. *)
Definition padRight (array : list number) (length : nat) (padding : number)
  : list number :=
  array ++ repeat padding (length - List.length array).

(** Modelled from the spec: [integerToBytes] of [utils.js], which is
    not among the sources.  The value is encoded as a "2-byte
    big-endian-or-device-specific integer"; the model takes the
    big-endian reading, the quotient by 256 and then the remainder.  No
    statement below depends on the order of the two bytes. *)
Definition integerToBytes (integer : number) : list number :=
  [inject_Z (Qfloor integer / 256); inject_Z (Qfloor integer mod 256)].

(** Modelled from the spec: [percentageWithinRange] of [utils.js],
    which is not among the sources.  "Linear interpolation:
    min + round(percentage/100 x (max - min))", with nearest-integer
    rounding. *)
Definition percentageWithinRange (percentage startRange endRange : number)
  : number :=
  startRange + Math_round (percentage / 100 * (endRange - startRange)).

End SpecUtils.

#[export] Instance utils : Utils :=
  {| padRight := SpecUtils.padRight;
     integerToBytes := SpecUtils.integerToBytes;
     percentageWithinRange := SpecUtils.percentageWithinRange |}.

(** The two devices the examples below use. *)
Definition glow : Device :=
  {| type := LitraGlow; hid := HID_new "/dev/hidraw0" |}.
Definition beam : Device :=
  {| type := LitraBeam; hid := HID_new "/dev/hidraw1" |}.

(** ** Notions of the specification *)

(** A number that one byte of a report can hold. *)
Definition is_byte (x : number) : bool :=
  Number_isInteger x && Qle_bool 0 x && Qle_bool x 255.

(** An enumeration entry of a supported light: Logitech's vendor id, the
    product id of a Litra Glow or of a Litra Beam, and the usage page of
    the lighting interface. *)
Definition supported (d : DeviceInfo) : Prop :=
  vendorId d = 0x046d%Z
  /\ (productId d = 0xc900%Z \/ productId d = 0xc901%Z)
  /\ usagePage d = 0xff43%Z.

(** The device type the specification gives a product id. *)
Definition classified (d : DeviceInfo) (t : DeviceType) : Prop :=
  (productId d = 0xc900%Z /\ t = LitraGlow)
  \/ (productId d = 0xc901%Z /\ t = LitraBeam).

(** ** Facts about the number built-ins *)

Lemma lt_true_iff (x y : number) : lt x y = true <-> x < y.
Proof.
  unfold lt. rewrite negb_true_iff.
  destruct (Qle_bool y x) eqn:E.
  - apply Qle_bool_iff in E. split; [discriminate | intros H; lra].
  - split; [intros _ | reflexivity].
    apply Qnot_le_lt. intros H. apply Qle_bool_iff in H. congruence.
Qed.

Lemma lt_false_iff (x y : number) : lt x y = false <-> y <= x.
Proof.
  unfold lt. rewrite negb_false_iff. apply Qle_bool_iff.
Qed.

Lemma gt_true_iff (x y : number) : gt x y = true <-> y < x.
Proof. apply lt_true_iff. Qed.

Lemma gt_false_iff (x y : number) : gt x y = false <-> x <= y.
Proof. apply lt_false_iff. Qed.

Lemma outside_true_iff (x lo hi : number) :
  lt x lo || gt x hi = true <-> x < lo \/ hi < x.
Proof. now rewrite orb_true_iff, lt_true_iff, gt_true_iff. Qed.

Lemma outside_false_iff (x lo hi : number) :
  lt x lo || gt x hi = false <-> lo <= x <= hi.
Proof. now rewrite orb_false_iff, lt_false_iff, gt_false_iff. Qed.

Lemma Number_isInteger_inject_Z (z : Z) : Number_isInteger (inject_Z z) = true.
Proof.
  unfold Number_isInteger. rewrite Qfloor_Z. apply Qeq_bool_iff. reflexivity.
Qed.

Lemma Number_isInteger_true_iff (x : number) :
  Number_isInteger x = true <-> exists z : Z, x == inject_Z z.
Proof.
  unfold Number_isInteger. rewrite Qeq_bool_iff. split.
  - intros H. exists (Qfloor x). symmetry. exact H.
  - intros [z Hz]. rewrite (Qfloor_comp _ _ Hz), Qfloor_Z. symmetry. exact Hz.
Qed.

Lemma Number_isInteger_plus (a b : Z) :
  Number_isInteger (inject_Z a + inject_Z b) = true.
Proof.
  apply Number_isInteger_true_iff. exists (a + b)%Z.
  rewrite inject_Z_plus. reflexivity.
Qed.

(** [Math.round] is within one half of its argument, the tie going up. *)
Lemma Math_round_nearest (x : number) :
  Number_isInteger (Math_round x) = true
  /\ x - (1 # 2) < Math_round x <= x + (1 # 2).
Proof.
  unfold Math_round. split; [apply Number_isInteger_inject_Z |].
  pose proof (Qfloor_le (x + (1 # 2))) as Hle.
  pose proof (Qlt_floor (x + (1 # 2))) as Hlt.
  rewrite inject_Z_plus in Hlt. change (inject_Z 1) with 1 in Hlt.
  generalize dependent (inject_Z (Qfloor (x + (1 # 2)))).
  intros r Hle Hlt. split; lra.
Qed.

Lemma Math_round_between (x : number) (n : Z) :
  0 <= x <= inject_Z n -> 0 <= Math_round x <= inject_Z n.
Proof.
  intros [H0 Hn]. unfold Math_round.
  assert (H1 : (0 <= Qfloor (x + (1 # 2)))%Z).
  { change 0%Z with (Qfloor 0). apply Qfloor_resp_le. lra. }
  assert (H2 : (Qfloor (x + (1 # 2)) <= n)%Z).
  { apply Z.lt_succ_r. rewrite <- Z.add_1_r.
    rewrite Zlt_Qlt. eapply Qle_lt_trans; [apply Qfloor_le |].
    rewrite inject_Z_plus. change (inject_Z 1) with 1.
    generalize dependent (inject_Z n). intros q Hq. lra. }
  rewrite Zle_Qle in H1, H2. split; [exact H1 | exact H2].
Qed.

(** ** The three ways out of an absolute setter

    These hold for any implementation of the helpers: the checks come
    first and do not call them. *)

Section SetterCases.

Context {U : Utils}.
Variables (device : Device) (value : number) (w : World).

Lemma setTemperatureInKelvin_not_integer :
  Number_isInteger value = false ->
  setTemperatureInKelvin device value w
  = (Threw "Provided temperature must be an integer", w).
Proof. intros H. unfold setTemperatureInKelvin. now rewrite H. Qed.

Lemma setTemperatureInKelvin_outside :
  Number_isInteger value = true ->
  lt value (inject_Z (getMinimumTemperatureInKelvinForDevice device))
  || gt value (inject_Z (getMaximumTemperatureInKelvinForDevice device))
  = true ->
  setTemperatureInKelvin device value w
  = (Threw ("Provided temperature must be between "
              ++ toString (getMinimumTemperatureInKelvinForDevice device)
              ++ " and "
              ++ toString (getMaximumTemperatureInKelvinForDevice device)
              ++ " for this device"), w).
Proof.
  intros Hi Ho. unfold setTemperatureInKelvin. rewrite Hi. cbv zeta.
  now rewrite Ho.
Qed.

Lemma setTemperatureInKelvin_inside :
  Number_isInteger value = true ->
  lt value (inject_Z (getMinimumTemperatureInKelvinForDevice device))
  || gt value (inject_Z (getMaximumTemperatureInKelvinForDevice device))
  = false ->
  setTemperatureInKelvin device value w
  = (Returned tt,
     w ++ [(hid_path (hid device),
            padRight ([0x11; 0xff; 0x04; 0x9c] ++ integerToBytes value)
              20 0x00)]).
Proof.
  intros Hi Ho. unfold setTemperatureInKelvin. rewrite Hi. cbv zeta.
  now rewrite Ho.
Qed.

Lemma setBrightnessInLumen_not_integer :
  Number_isInteger value = false ->
  setBrightnessInLumen device value w
  = (Threw "Provided brightness must be an integer", w).
Proof. intros H. unfold setBrightnessInLumen. now rewrite H. Qed.

Lemma setBrightnessInLumen_outside :
  Number_isInteger value = true ->
  lt value (inject_Z (getMinimumBrightnessInLumenForDevice device))
  || gt value (inject_Z (getMaximumBrightnessInLumenForDevice device))
  = true ->
  setBrightnessInLumen device value w
  = (Threw ("Provided brightness must be between "
              ++ toString (getMinimumBrightnessInLumenForDevice device)
              ++ " and "
              ++ toString (getMaximumBrightnessInLumenForDevice device)
              ++ " for this device"), w).
Proof.
  intros Hi Ho. unfold setBrightnessInLumen. rewrite Hi. cbv zeta.
  now rewrite Ho.
Qed.

Lemma setBrightnessInLumen_inside :
  Number_isInteger value = true ->
  lt value (inject_Z (getMinimumBrightnessInLumenForDevice device))
  || gt value (inject_Z (getMaximumBrightnessInLumenForDevice device))
  = false ->
  setBrightnessInLumen device value w
  = (Returned tt,
     w ++ [(hid_path (hid device),
            padRight [0x11; 0xff; 0x04; 0x4c; 0x00; value] 20 0x00)]).
Proof.
  intros Hi Ho. unfold setBrightnessInLumen. rewrite Hi. cbv zeta.
  now rewrite Ho.
Qed.

(** A percentage within [0, 100] is handed over to the absolute
    setter. *)
Lemma setTemperaturePercentage_delegates :
  lt value 0 || gt value 100 = false ->
  setTemperaturePercentage device value w
  = setTemperatureInKelvin device
      (if strict_eq value 0
       then inject_Z (getMinimumTemperatureInKelvinForDevice device)
       else percentageWithinRange value
              (inject_Z (getMinimumTemperatureInKelvinForDevice device))
              (inject_Z (getMaximumTemperatureInKelvinForDevice device))) w.
Proof. intros H. unfold setTemperaturePercentage. now rewrite H. Qed.

Lemma setBrightnessPercentage_delegates :
  lt value 0 || gt value 100 = false ->
  setBrightnessPercentage device value w
  = setBrightnessInLumen device
      (if strict_eq value 0
       then inject_Z (getMinimumBrightnessInLumenForDevice device)
       else percentageWithinRange value
              (inject_Z (getMinimumBrightnessInLumenForDevice device))
              (inject_Z (getMaximumBrightnessInLumenForDevice device))) w.
Proof. intros H. unfold setBrightnessPercentage. now rewrite H. Qed.

Lemma setTemperaturePercentage_outside :
  lt value 0 || gt value 100 = true ->
  setTemperaturePercentage device value w
  = (Threw "Percentage must be between 0 and 100", w).
Proof. intros H. unfold setTemperaturePercentage. now rewrite H. Qed.

Lemma setBrightnessPercentage_outside :
  lt value 0 || gt value 100 = true ->
  setBrightnessPercentage device value w
  = (Threw "Percentage must be between 0 and 100", w).
Proof. intros H. unfold setBrightnessPercentage. now rewrite H. Qed.

(** An absolute setter either throws one of its own two messages and
    leaves the trace alone, or returns after one write. *)
Lemma setTemperatureInKelvin_outcome :
  setTemperatureInKelvin device value w
  = (Threw "Provided temperature must be an integer", w)
  \/ setTemperatureInKelvin device value w
     = (Threw ("Provided temperature must be between "
                 ++ toString (getMinimumTemperatureInKelvinForDevice device)
                 ++ " and "
                 ++ toString (getMaximumTemperatureInKelvinForDevice device)
                 ++ " for this device"), w)
  \/ exists r, setTemperatureInKelvin device value w
               = (Returned tt, w ++ [(hid_path (hid device), r)]).
Proof.
  destruct (Number_isInteger value) eqn:Hi.
  - destruct (lt value (inject_Z (getMinimumTemperatureInKelvinForDevice device))
              || gt value (inject_Z (getMaximumTemperatureInKelvinForDevice device)))
      eqn:Ho.
    + right; left. now apply setTemperatureInKelvin_outside.
    + right; right. eexists. now apply setTemperatureInKelvin_inside.
  - left. now apply setTemperatureInKelvin_not_integer.
Qed.

Lemma setBrightnessInLumen_outcome :
  setBrightnessInLumen device value w
  = (Threw "Provided brightness must be an integer", w)
  \/ setBrightnessInLumen device value w
     = (Threw ("Provided brightness must be between "
                 ++ toString (getMinimumBrightnessInLumenForDevice device)
                 ++ " and "
                 ++ toString (getMaximumBrightnessInLumenForDevice device)
                 ++ " for this device"), w)
  \/ exists r, setBrightnessInLumen device value w
               = (Returned tt, w ++ [(hid_path (hid device), r)]).
Proof.
  destruct (Number_isInteger value) eqn:Hi.
  - destruct (lt value (inject_Z (getMinimumBrightnessInLumenForDevice device))
              || gt value (inject_Z (getMaximumBrightnessInLumenForDevice device)))
      eqn:Ho.
    + right; left. now apply setBrightnessInLumen_outside.
    + right; right. eexists. now apply setBrightnessInLumen_inside.
  - left. now apply setBrightnessInLumen_not_integer.
Qed.

End SetterCases.

(** ** Validation of the absolute setters *)

(** C5.  A value that is not an integer (3000.5, say) makes
    [setTemperatureInKelvin] and [setBrightnessInLumen] throw their
    "must be an integer" message, the invalid-argument error, with
    nothing written.  Nothing is assumed about the position of the value
    with respect to the bounds: the integer check is made first, so a
    value that is both fractional and out of range gets this message
    and not the range one. *)
Theorem absolute_setters_reject_non_integer
    {U : Utils} (device : Device) (value : number) (w : World) :
  Number_isInteger value = false ->
  setTemperatureInKelvin device value w
  = (Threw "Provided temperature must be an integer", w)
  /\ setBrightnessInLumen device value w
     = (Threw "Provided brightness must be an integer", w).
Proof.
  intros H. split.
  - now apply setTemperatureInKelvin_not_integer.
  - now apply setBrightnessInLumen_not_integer.
Qed.

Lemma absolute_setters_reject_non_integer_witness :
  Number_isInteger 3000.5 = false
  /\ setTemperatureInKelvin glow 3000.5 []
     = (Threw "Provided temperature must be an integer", [])
  /\ setBrightnessInLumen glow 3000.5 []
     = (Threw "Provided brightness must be an integer", []).
Proof.
  split; [reflexivity |].
  apply (absolute_setters_reject_non_integer glow 3000.5 []). reflexivity.
Defined.

(** C4.  On an integer value, [setBrightnessInLumen] and
    [setTemperatureInKelvin] throw the out-of-range message exactly when
    the value is below the minimum or above the maximum of the device
    type, and return exactly when it is within the inclusive bounds.
    The message spells out the two bounds.  For a Litra Glow, 19 and
    251 lumen are rejected with "between 20 and 250", and 20 and 250 are
    accepted. *)
Theorem absolute_setters_out_of_range_iff
    {U : Utils} (device : Device) (value : number) (w : World) :
  Number_isInteger value = true ->
  (fst (setBrightnessInLumen device value w)
   = Threw ("Provided brightness must be between "
              ++ toString (getMinimumBrightnessInLumenForDevice device)
              ++ " and "
              ++ toString (getMaximumBrightnessInLumenForDevice device)
              ++ " for this device")
   <-> value < inject_Z (getMinimumBrightnessInLumenForDevice device)
       \/ inject_Z (getMaximumBrightnessInLumenForDevice device) < value)
  /\ (fst (setBrightnessInLumen device value w) = Returned tt
      <-> inject_Z (getMinimumBrightnessInLumenForDevice device) <= value
          <= inject_Z (getMaximumBrightnessInLumenForDevice device))
  /\ (fst (setTemperatureInKelvin device value w)
      = Threw ("Provided temperature must be between "
                 ++ toString (getMinimumTemperatureInKelvinForDevice device)
                 ++ " and "
                 ++ toString (getMaximumTemperatureInKelvinForDevice device)
                 ++ " for this device")
      <-> value < inject_Z (getMinimumTemperatureInKelvinForDevice device)
          \/ inject_Z (getMaximumTemperatureInKelvinForDevice device) < value)
  /\ (fst (setTemperatureInKelvin device value w) = Returned tt
      <-> inject_Z (getMinimumTemperatureInKelvinForDevice device) <= value
          <= inject_Z (getMaximumTemperatureInKelvinForDevice device))
  /\ (type device = LitraGlow ->
      setBrightnessInLumen device 19 w
      = (Threw "Provided brightness must be between 20 and 250 for this device",
         w)
      /\ setBrightnessInLumen device 251 w
         = (Threw
              "Provided brightness must be between 20 and 250 for this device",
            w)
      /\ fst (setBrightnessInLumen device 20 w) = Returned tt
      /\ fst (setBrightnessInLumen device 250 w) = Returned tt).
Proof.
  intros Hi.
  repeat match goal with |- _ /\ _ => split end.
  - rewrite <- outside_true_iff.
    destruct (lt value _ || gt value _) eqn:Ho.
    + rewrite (setBrightnessInLumen_outside _ _ _ Hi Ho). now split.
    + rewrite (setBrightnessInLumen_inside _ _ _ Hi Ho). now split.
  - rewrite <- outside_false_iff.
    destruct (lt value _ || gt value _) eqn:Ho.
    + rewrite (setBrightnessInLumen_outside _ _ _ Hi Ho). now split.
    + rewrite (setBrightnessInLumen_inside _ _ _ Hi Ho). now split.
  - rewrite <- outside_true_iff.
    destruct (lt value _ || gt value _) eqn:Ho.
    + rewrite (setTemperatureInKelvin_outside _ _ _ Hi Ho). now split.
    + rewrite (setTemperatureInKelvin_inside _ _ _ Hi Ho). now split.
  - rewrite <- outside_false_iff.
    destruct (lt value _ || gt value _) eqn:Ho.
    + rewrite (setTemperatureInKelvin_outside _ _ _ Hi Ho). now split.
    + rewrite (setTemperatureInKelvin_inside _ _ _ Hi Ho). now split.
  - destruct device as [t h]. simpl. intros ->.
    repeat match goal with |- _ /\ _ => split end.
    + now rewrite setBrightnessInLumen_outside.
    + now rewrite setBrightnessInLumen_outside.
    + now rewrite setBrightnessInLumen_inside.
    + now rewrite setBrightnessInLumen_inside.
Qed.

Lemma absolute_setters_out_of_range_iff_witness :
  Number_isInteger 401 = true
  /\ fst (setBrightnessInLumen beam 401 [])
     = Threw "Provided brightness must be between 30 and 400 for this device"
  /\ fst (setTemperatureInKelvin beam 401 [])
     = Threw
         "Provided temperature must be between 2700 and 6500 for this device".
Proof.
  split; [reflexivity |].
  pose proof (absolute_setters_out_of_range_iff beam 401 [] eq_refl)
    as (Hb & _ & Ht & _).
  split.
  - apply Hb. right. reflexivity.
  - apply Ht. left. reflexivity.
Defined.

(** ** Validation of the percentage setters *)

(** No completion of an absolute setter is the percentage error. *)
Lemma setTemperatureInKelvin_never_percentage_error
    {U : Utils} (device : Device) (value : number) (w : World) :
  fst (setTemperatureInKelvin device value w)
  <> Threw "Percentage must be between 0 and 100".
Proof.
  destruct (setTemperatureInKelvin_outcome device value w)
    as [E | [E | [r E]]]; rewrite E; simpl; discriminate.
Qed.

Lemma setBrightnessInLumen_never_percentage_error
    {U : Utils} (device : Device) (value : number) (w : World) :
  fst (setBrightnessInLumen device value w)
  <> Threw "Percentage must be between 0 and 100".
Proof.
  destruct (setBrightnessInLumen_outcome device value w)
    as [E | [E | [r E]]]; rewrite E; simpl; discriminate.
Qed.

(** C6.  [setTemperaturePercentage] and [setBrightnessPercentage] throw
    "Percentage must be between 0 and 100", the out-of-range error,
    exactly when the percentage is below 0 or above 100; -1 and 101 are
    both rejected.  The rejection leaves the trace alone and holds
    whatever the interpolation helper is: it is not reached. *)
Theorem percentage_setters_out_of_range_iff
    {U : Utils} (device : Device) (percentage : number) (w : World) :
  (fst (setTemperaturePercentage device percentage w)
   = Threw "Percentage must be between 0 and 100"
   <-> percentage < 0 \/ 100 < percentage)
  /\ (fst (setBrightnessPercentage device percentage w)
      = Threw "Percentage must be between 0 and 100"
      <-> percentage < 0 \/ 100 < percentage)
  /\ (percentage < 0 \/ 100 < percentage ->
      setTemperaturePercentage device percentage w
      = (Threw "Percentage must be between 0 and 100", w)
      /\ setBrightnessPercentage device percentage w
         = (Threw "Percentage must be between 0 and 100", w))
  /\ setTemperaturePercentage device (-1) w
     = (Threw "Percentage must be between 0 and 100", w)
  /\ setTemperaturePercentage device 101 w
     = (Threw "Percentage must be between 0 and 100", w)
  /\ setBrightnessPercentage device (-1) w
     = (Threw "Percentage must be between 0 and 100", w)
  /\ setBrightnessPercentage device 101 w
     = (Threw "Percentage must be between 0 and 100", w).
Proof.
  repeat match goal with |- _ /\ _ => split end.
  - rewrite <- outside_true_iff.
    destruct (lt percentage 0 || gt percentage 100) eqn:Ho.
    + rewrite (setTemperaturePercentage_outside _ _ _ Ho). now split.
    + rewrite (setTemperaturePercentage_delegates _ _ _ Ho).
      split; [intros H | discriminate].
      now apply setTemperatureInKelvin_never_percentage_error in H.
  - rewrite <- outside_true_iff.
    destruct (lt percentage 0 || gt percentage 100) eqn:Ho.
    + rewrite (setBrightnessPercentage_outside _ _ _ Ho). now split.
    + rewrite (setBrightnessPercentage_delegates _ _ _ Ho).
      split; [intros H | discriminate].
      now apply setBrightnessInLumen_never_percentage_error in H.
  - intros Ho. apply outside_true_iff in Ho. split.
    + now apply setTemperaturePercentage_outside.
    + now apply setBrightnessPercentage_outside.
  - now apply setTemperaturePercentage_outside.
  - now apply setTemperaturePercentage_outside.
  - now apply setBrightnessPercentage_outside.
  - now apply setBrightnessPercentage_outside.
Qed.

(** C7.  Whenever one of the four setters throws, the trace of writes
    is the one it started from: every validation error is raised before
    the report is handed to the handle. *)
Theorem setters_throw_before_write
    {U : Utils} (device : Device) (value : number) (w : World) :
  (forall msg w', setTemperatureInKelvin device value w = (Threw msg, w') ->
                  w' = w)
  /\ (forall msg w', setBrightnessInLumen device value w = (Threw msg, w') ->
                     w' = w)
  /\ (forall msg w', setTemperaturePercentage device value w = (Threw msg, w') ->
                     w' = w)
  /\ (forall msg w', setBrightnessPercentage device value w = (Threw msg, w') ->
                     w' = w).
Proof.
  assert (HT : forall v msg w',
             setTemperatureInKelvin device v w = (Threw msg, w') -> w' = w).
  { intros v msg w' H.
    destruct (setTemperatureInKelvin_outcome device v w)
      as [E | [E | [r E]]]; rewrite E in H; congruence. }
  assert (HB : forall v msg w',
             setBrightnessInLumen device v w = (Threw msg, w') -> w' = w).
  { intros v msg w' H.
    destruct (setBrightnessInLumen_outcome device v w)
      as [E | [E | [r E]]]; rewrite E in H; congruence. }
  repeat match goal with |- _ /\ _ => split end.
  - apply HT.
  - apply HB.
  - intros msg w' H.
    destruct (lt value 0 || gt value 100) eqn:Ho.
    + rewrite (setTemperaturePercentage_outside _ _ _ Ho) in H. congruence.
    + rewrite (setTemperaturePercentage_delegates _ _ _ Ho) in H.
      now apply HT in H.
  - intros msg w' H.
    destruct (lt value 0 || gt value 100) eqn:Ho.
    + rewrite (setBrightnessPercentage_outside _ _ _ Ho) in H. congruence.
    + rewrite (setBrightnessPercentage_delegates _ _ _ Ho) in H.
      now apply HB in H.
Qed.

Lemma setters_throw_before_write_witness :
  snd (setTemperatureInKelvin glow 7000 [("/dev/hidraw0"%string, [0x11])])
  = [("/dev/hidraw0"%string, [0x11])]
  /\ snd (setBrightnessPercentage glow 101 [("/dev/hidraw0"%string, [0x11])])
     = [("/dev/hidraw0"%string, [0x11])].
Proof.
  pose proof (setters_throw_before_write glow 7000
                [("/dev/hidraw0"%string, [0x11])]) as (HT & _).
  pose proof (setters_throw_before_write glow 101
                [("/dev/hidraw0"%string, [0x11])]) as (_ & _ & _ & HB).
  split.
  - apply (HT "Provided temperature must be between 2700 and 6500 for this device"%string).
    reflexivity.
  - apply (HB "Percentage must be between 0 and 100"%string). reflexivity.
Defined.

(** ** Percentage zero *)

(** C2.  [setTemperaturePercentage device 0] is
    [setTemperatureInKelvin device] at the minimum temperature of the
    device type: same completion, same report.  This holds whatever the
    interpolation helper is, which the branch for zero does not call;
    the one report written is the opcode prefix followed by the encoded
    minimum. *)
Theorem setTemperaturePercentage_zero_is_minimum
    {U : Utils} (device : Device) (w : World) :
  setTemperaturePercentage device 0 w
  = setTemperatureInKelvin device
      (inject_Z (getMinimumTemperatureInKelvinForDevice device)) w
  /\ setTemperaturePercentage device 0 w
     = (Returned tt,
        w ++ [(hid_path (hid device),
               padRight
                 ([0x11; 0xff; 0x04; 0x9c]
                    ++ integerToBytes
                         (inject_Z
                            (getMinimumTemperatureInKelvinForDevice device)))
                 20 0x00)]).
Proof.
  assert (E : setTemperaturePercentage device 0 w
              = setTemperatureInKelvin device
                  (inject_Z (getMinimumTemperatureInKelvinForDevice device)) w).
  { now rewrite setTemperaturePercentage_delegates. }
  split; [exact E |]. rewrite E.
  apply setTemperatureInKelvin_inside.
  - apply Number_isInteger_inject_Z.
  - now destruct device as [[|] h].
Qed.

(** ** Reports, with the helpers of the specification *)

(** C8.  [turnOn] writes the 20-element report 11 ff 04 1c 01 followed
    by fifteen zeros, and [turnOff] the same report with 00 at offset 4,
    whatever the device. *)
Theorem turnOn_turnOff_reports (device : Device) (w : World) :
  turnOn device w
  = (Returned tt,
     w ++ [(hid_path (hid device),
            [0x11; 0xff; 0x04; 0x1c; 0x01;
             0; 0; 0; 0; 0; 0; 0; 0; 0; 0; 0; 0; 0; 0; 0])])
  /\ turnOff device w
     = (Returned tt,
        w ++ [(hid_path (hid device),
               [0x11; 0xff; 0x04; 0x1c; 0x00;
                0; 0; 0; 0; 0; 0; 0; 0; 0; 0; 0; 0; 0; 0; 0])])
  /\ List.length (padRight [0x11; 0xff; 0x04; 0x1c; 0x01] 20 0x00) = 20%nat
  /\ List.length (padRight [0x11; 0xff; 0x04; 0x1c; 0x00] 20 0x00) = 20%nat.
Proof. repeat split. Qed.

(** What [setBrightnessInLumen] writes for an integer within the
    bounds: the prefix, a zero, the value itself in the one slot at
    offset 5, and fourteen zeros.  The slot holds a byte exactly when
    the value is at most 255. *)
Lemma setBrightnessInLumen_report (device : Device) (value : number) (w : World) :
  Number_isInteger value = true ->
  inject_Z (getMinimumBrightnessInLumenForDevice device) <= value
  <= inject_Z (getMaximumBrightnessInLumenForDevice device) ->
  setBrightnessInLumen device value w
  = (Returned tt,
     w ++ [(hid_path (hid device),
            [0x11; 0xff; 0x04; 0x4c; 0x00; value;
             0; 0; 0; 0; 0; 0; 0; 0; 0; 0; 0; 0; 0; 0])])
  /\ (is_byte value = true <-> value <= 255).
Proof.
  intros Hi Hr. split.
  - apply outside_false_iff in Hr.
    now rewrite (setBrightnessInLumen_inside _ _ _ Hi Hr).
  - unfold is_byte. rewrite Hi. simpl.
    rewrite andb_true_iff, !Qle_bool_iff. split; [tauto |].
    intros H. split; [| exact H].
    destruct Hr as [Hlo _]. eapply Qle_trans; [| exact Hlo].
    now destruct device as [[|] h].
Qed.

(** On a Litra Glow every accepted brightness is a byte. *)
Lemma setBrightnessInLumen_glow_byte (device : Device) (value : number) :
  type device = LitraGlow ->
  Number_isInteger value = true ->
  inject_Z (getMinimumBrightnessInLumenForDevice device) <= value
  <= inject_Z (getMaximumBrightnessInLumenForDevice device) ->
  is_byte value = true.
Proof.
  intros Ht Hi Hr.
  apply (setBrightnessInLumen_report device value [] Hi Hr).
  destruct Hr as [_ Hhi]. eapply Qle_trans; [exact Hhi |].
  destruct device as [t h]. simpl in Ht. subst t. discriminate.
Qed.

(** C1, at the input where it fails.  400 lumen is within the bounds of
    a Litra Beam and is accepted; the report written has the prefix
    11 ff 04 4c, a zero, and then the number 400 in the single slot at
    offset 5, which is not a byte.  The value is not split over two
    bytes, as [setTemperatureInKelvin] splits its own with
    [integerToBytes]: the slot before it is the constant 0. *)
Theorem setBrightnessInLumen_beam_400_not_a_byte (h : HID) (w : World) :
  inject_Z (MINIMUM_BRIGHTNESS_IN_LUMEN_BY_DEVICE_TYPE LitraBeam) <= 400
  <= inject_Z (MAXIMUM_BRIGHTNESS_IN_LUMEN_BY_DEVICE_TYPE LitraBeam)
  /\ setBrightnessInLumen {| type := LitraBeam; hid := h |} 400 w
     = (Returned tt,
        w ++ [(hid_path h,
               [0x11; 0xff; 0x04; 0x4c; 0x00; 400;
                0; 0; 0; 0; 0; 0; 0; 0; 0; 0; 0; 0; 0; 0])])
  /\ nth 5 (padRight [0x11; 0xff; 0x04; 0x4c; 0x00; 400] 20 0x00) 0 = 400
  /\ is_byte 400 = false
  /\ forallb is_byte (padRight [0x11; 0xff; 0x04; 0x4c; 0x00; 400] 20 0x00)
     = false.
Proof.
  repeat match goal with |- _ /\ _ => split end;
    try reflexivity; discriminate.
Qed.

(** ** Interpolation, with the helpers of the specification *)

(** The interpolated value of a percentage within [0, 100] is an
    integer between the two ends of the range. *)
Lemma percentageWithinRange_in_range (percentage : number) (lo hi : Z) :
  (lo <= hi)%Z ->
  0 <= percentage <= 100 ->
  Number_isInteger
    (percentageWithinRange percentage (inject_Z lo) (inject_Z hi)) = true
  /\ inject_Z lo
     <= percentageWithinRange percentage (inject_Z lo) (inject_Z hi)
     <= inject_Z hi.
Proof.
  intros Hlh [H0 H100]. simpl. unfold SpecUtils.percentageWithinRange.
  split; [apply Number_isInteger_plus |].
  assert (Hx : 0 <= percentage / 100 * (inject_Z hi - inject_Z lo)
               <= inject_Z (hi - lo)).
  { unfold Zminus. rewrite inject_Z_plus, inject_Z_opp.
    rewrite Zle_Qle in Hlh.
    unfold Qdiv. change (/ 100) with (1 # 100).
    generalize dependent (inject_Z hi). generalize dependent (inject_Z lo).
    intros l h Hlh. split.
    - apply Qmult_le_0_compat; lra.
    - assert (H : (1 - percentage * (1 # 100)) * (h - l) >= 0)
        by (apply Qmult_le_0_compat; lra).
      lra. }
  apply Math_round_between in Hx.
  unfold Zminus in Hx. rewrite inject_Z_plus, inject_Z_opp in Hx.
  generalize dependent (Math_round (percentage / 100 * (inject_Z hi - inject_Z lo))).
  generalize dependent (inject_Z hi). generalize dependent (inject_Z lo).
  intros l h r Hr. lra.
Qed.

Lemma minimum_below_maximum (t : DeviceType) :
  (MINIMUM_BRIGHTNESS_IN_LUMEN_BY_DEVICE_TYPE t
   < MAXIMUM_BRIGHTNESS_IN_LUMEN_BY_DEVICE_TYPE t)%Z
  /\ (MINIMUM_TEMPERATURE_IN_KELVIN_BY_DEVICE_TYPE t
      < MAXIMUM_TEMPERATURE_IN_KELVIN_BY_DEVICE_TYPE t)%Z.
Proof. destruct t; split; reflexivity. Qed.

Lemma strict_eq_zero_false (percentage : number) :
  0 < percentage -> strict_eq percentage 0 = false.
Proof.
  intros H. unfold strict_eq. destruct (Qeq_bool percentage 0) eqn:E; [| reflexivity].
  apply Qeq_bool_iff in E. lra.
Qed.

(** ** Every percentage within [0, 100] is accepted

    With the interpolation of the specification, a percentage setter
    throws only its own range error. *)
Lemma percentage_setters_accept_in_range
    (device : Device) (percentage : number) (w : World) :
  0 <= percentage <= 100 ->
  (exists r, setTemperaturePercentage device percentage w
             = (Returned tt, w ++ [(hid_path (hid device), r)]))
  /\ (exists r, setBrightnessPercentage device percentage w
                = (Returned tt, w ++ [(hid_path (hid device), r)])).
Proof.
  intros Hp.
  assert (Ho : lt percentage 0 || gt percentage 100 = false)
    by now apply outside_false_iff.
  destruct (minimum_below_maximum (type device)) as [HB HT].
  split.
  - rewrite (setTemperaturePercentage_delegates _ _ _ Ho).
    destruct (strict_eq percentage 0).
    + eexists. apply setTemperatureInKelvin_inside.
      * apply Number_isInteger_inject_Z.
      * apply outside_false_iff. rewrite <- !Zle_Qle.
        split; [apply Z.le_refl | now apply Z.lt_le_incl].
    + destruct (percentageWithinRange_in_range percentage _ _
                  (Z.lt_le_incl _ _ HT) Hp) as [Hi Hr].
      eexists. apply setTemperatureInKelvin_inside; [exact Hi |].
      now apply outside_false_iff.
  - rewrite (setBrightnessPercentage_delegates _ _ _ Ho).
    destruct (strict_eq percentage 0).
    + eexists. apply setBrightnessInLumen_inside.
      * apply Number_isInteger_inject_Z.
      * apply outside_false_iff. rewrite <- !Zle_Qle.
        split; [apply Z.le_refl | now apply Z.lt_le_incl].
    + destruct (percentageWithinRange_in_range percentage _ _
                  (Z.lt_le_incl _ _ HB) Hp) as [Hi Hr].
      eexists. apply setBrightnessInLumen_inside; [exact Hi |].
      now apply outside_false_iff.
Qed.

(** C3.  For a percentage above 0 and at most 100,
    [setTemperaturePercentage] hands [setTemperatureInKelvin] the value
    min + round(percentage / 100 * (max - min)), and
    [setBrightnessPercentage] does the same with [setBrightnessInLumen]
    over the brightness bounds; [round] yields an integer within one
    half of its argument.  At 100 the value is the maximum itself, and
    the temperature report written is the opcode prefix followed by
    the encoded maximum. *)
Theorem percentage_setters_interpolate
    (device : Device) (percentage : number) (w : World) :
  0 < percentage <= 100 ->
  setTemperaturePercentage device percentage w
  = setTemperatureInKelvin device
      (inject_Z (getMinimumTemperatureInKelvinForDevice device)
       + Math_round
           (percentage / 100
            * (inject_Z (getMaximumTemperatureInKelvinForDevice device)
               - inject_Z (getMinimumTemperatureInKelvinForDevice device)))) w
  /\ setBrightnessPercentage device percentage w
     = setBrightnessInLumen device
         (inject_Z (getMinimumBrightnessInLumenForDevice device)
          + Math_round
              (percentage / 100
               * (inject_Z (getMaximumBrightnessInLumenForDevice device)
                  - inject_Z (getMinimumBrightnessInLumenForDevice device)))) w
  /\ (forall x : number,
         Number_isInteger (Math_round x) = true
         /\ x - (1 # 2) < Math_round x <= x + (1 # 2))
  /\ setTemperaturePercentage device 100 w
     = setTemperatureInKelvin device
         (inject_Z (getMaximumTemperatureInKelvinForDevice device)) w
  /\ setBrightnessPercentage device 100 w
     = setBrightnessInLumen device
         (inject_Z (getMaximumBrightnessInLumenForDevice device)) w
  /\ setTemperaturePercentage device 100 w
     = (Returned tt,
        w ++ [(hid_path (hid device),
               padRight
                 ([0x11; 0xff; 0x04; 0x9c]
                    ++ integerToBytes
                         (inject_Z
                            (getMaximumTemperatureInKelvinForDevice device)))
                 20 0x00)]).
Proof.
  intros [H0 H100].
  assert (Ho : lt percentage 0 || gt percentage 100 = false)
    by (apply outside_false_iff; lra).
  repeat match goal with |- _ /\ _ => split end.
  - rewrite (setTemperaturePercentage_delegates _ _ _ Ho).
    now rewrite (strict_eq_zero_false _ H0).
  - rewrite (setBrightnessPercentage_delegates _ _ _ Ho).
    now rewrite (strict_eq_zero_false _ H0).
  - apply Math_round_nearest.
  - rewrite setTemperaturePercentage_delegates by reflexivity.
    now destruct device as [[|] h].
  - rewrite setBrightnessPercentage_delegates by reflexivity.
    now destruct device as [[|] h].
  - rewrite setTemperaturePercentage_delegates by reflexivity.
    now destruct device as [[|] h].
Qed.

Lemma percentage_setters_interpolate_witness :
  0 < 50 <= 100
  /\ setTemperaturePercentage glow 50 []
     = setTemperatureInKelvin glow 4600 []
  /\ setBrightnessPercentage glow 50 []
     = setBrightnessInLumen glow 135 [].
Proof.
  split; [split; [reflexivity | discriminate] |].
  assert (H : 0 < 50 <= 100) by (split; [reflexivity | discriminate]).
  pose proof (percentage_setters_interpolate glow 50 [] H) as (HT & HB & _).
  split.
  - exact HT.
  - exact HB.
Defined.

(** C10.  A percentage strictly between 0 and 100 that is not an
    integer (50.5, say) is accepted by both percentage setters: it is
    interpolated, the interpolated value is an integer within the
    bounds, and the setter returns after writing one report.  No
    "must be an integer" error is raised for it. *)
Theorem percentage_setters_accept_fractions
    (device : Device) (percentage : number) (w : World) :
  0 < percentage < 100 ->
  Number_isInteger percentage = false ->
  (setTemperaturePercentage device percentage w
   = setTemperatureInKelvin device
       (percentageWithinRange percentage
          (inject_Z (getMinimumTemperatureInKelvinForDevice device))
          (inject_Z (getMaximumTemperatureInKelvinForDevice device))) w
   /\ Number_isInteger
        (percentageWithinRange percentage
           (inject_Z (getMinimumTemperatureInKelvinForDevice device))
           (inject_Z (getMaximumTemperatureInKelvinForDevice device))) = true
   /\ exists r, setTemperaturePercentage device percentage w
                = (Returned tt, w ++ [(hid_path (hid device), r)]))
  /\ (setBrightnessPercentage device percentage w
      = setBrightnessInLumen device
          (percentageWithinRange percentage
             (inject_Z (getMinimumBrightnessInLumenForDevice device))
             (inject_Z (getMaximumBrightnessInLumenForDevice device))) w
      /\ Number_isInteger
           (percentageWithinRange percentage
              (inject_Z (getMinimumBrightnessInLumenForDevice device))
              (inject_Z (getMaximumBrightnessInLumenForDevice device))) = true
      /\ exists r, setBrightnessPercentage device percentage w
                   = (Returned tt, w ++ [(hid_path (hid device), r)])).
Proof.
  intros [H0 H100] _.
  assert (Ho : lt percentage 0 || gt percentage 100 = false)
    by (apply outside_false_iff; lra).
  assert (Hp : 0 <= percentage <= 100) by lra.
  destruct (minimum_below_maximum (type device)) as [HB HT].
  split.
  - destruct (percentageWithinRange_in_range percentage _ _
                (Z.lt_le_incl _ _ HT) Hp) as [Hi Hr].
    rewrite (setTemperaturePercentage_delegates _ _ _ Ho).
    rewrite (strict_eq_zero_false _ H0).
    repeat split; [exact Hi |].
    eexists. apply setTemperatureInKelvin_inside; [exact Hi |].
    now apply outside_false_iff.
  - destruct (percentageWithinRange_in_range percentage _ _
                (Z.lt_le_incl _ _ HB) Hp) as [Hi Hr].
    rewrite (setBrightnessPercentage_delegates _ _ _ Ho).
    rewrite (strict_eq_zero_false _ H0).
    repeat split; [exact Hi |].
    eexists. apply setBrightnessInLumen_inside; [exact Hi |].
    now apply outside_false_iff.
Qed.

Lemma percentage_setters_accept_fractions_witness :
  0 < 50.5 < 100
  /\ Number_isInteger 50.5 = false
  /\ (exists r, setTemperaturePercentage glow 50.5 []
                = (Returned tt, [] ++ [(hid_path (hid glow), r)]))
  /\ (exists r, setBrightnessPercentage glow 50.5 []
                = (Returned tt, [] ++ [(hid_path (hid glow), r)])).
Proof.
  assert (H : 0 < 50.5 < 100) by (split; reflexivity).
  split; [exact H |]. split; [reflexivity |].
  pose proof (percentage_setters_accept_fractions glow 50.5 [] H eq_refl)
    as ((_ & _ & HT) & (_ & _ & HB)).
  split; [exact HT | exact HB].
Defined.

(** ** Finding the device *)

(** [Array.prototype.find]: nothing satisfies the test, or the result
    is the first element that does. *)
Lemma find_first {A : Type} (f : A -> bool) (l : list A) :
  (find f l = None /\ Forall (fun x => f x = false) l)
  \/ (exists pre d post,
         l = pre ++ d :: post
         /\ Forall (fun x => f x = false) pre
         /\ f d = true
         /\ find f l = Some d).
Proof.
  induction l as [| a l IH]; simpl.
  - left. split; [reflexivity | constructor].
  - destruct (f a) eqn:Ea.
    + right. exists [], a, l. repeat split; [constructor | exact Ea].
    + destruct IH as [[En Hall] | (pre & d & post & -> & Hpre & Hd & Ef)].
      * left. split; [exact En | now constructor].
      * right. exists (a :: pre), d, post.
        repeat split; [now constructor | exact Hd | exact Ef].
Qed.

(** The test of [findDevice] decides [supported]. *)
Lemma supported_test (d : DeviceInfo) :
  (vendorId d =? VENDOR_ID)%Z
  && includes PRODUCT_IDS (productId d)
  && (usagePage d =? USAGE_PAGE)%Z = true
  <-> supported d.
Proof.
  unfold supported, includes, PRODUCT_IDS, VENDOR_ID, USAGE_PAGE. simpl.
  rewrite !andb_true_iff, !orb_true_iff, !Z.eqb_eq.
  intuition discriminate.
Qed.

Lemma supported_test_false (d : DeviceInfo) :
  (vendorId d =? VENDOR_ID)%Z
  && includes PRODUCT_IDS (productId d)
  && (usagePage d =? USAGE_PAGE)%Z = false
  <-> ~ supported d.
Proof.
  rewrite <- supported_test. now rewrite not_true_iff_false.
Qed.

(** C9.  Whatever the enumeration, [findDevice] does one of two things
    and never throws.  When no entry has vendor id 046d, product id
    c900 or c901 and usage page ff43, it returns [null].  Otherwise it
    returns the device made from the first such entry of the
    enumeration: every entry before it fails the test, its type is
    Litra Glow for c900 and Litra Beam for c901, and its handle is
    opened on the path of that entry.  Nothing is written. *)
Theorem findDevice_first_match (devices : list DeviceInfo) (w : World) :
  (Forall (fun x => ~ supported x) devices
   /\ findDevice devices w = (Returned None, w))
  \/ (exists pre d post t,
         devices = pre ++ d :: post
         /\ Forall (fun x => ~ supported x) pre
         /\ supported d
         /\ classified d t
         /\ findDevice devices w
            = (Returned (Some {| type := t; hid := HID_new (path d) |}), w)).
Proof.
  unfold findDevice. cbv zeta.
  match goal with
  | |- context [find ?f devices] => destruct (find_first f devices)
      as [[En Hall] | (pre & d & post & -> & Hpre & Hd & Ef)]
  end.
  - left. rewrite En. split; [| reflexivity].
    eapply Forall_impl; [| exact Hall].
    intros a Ha. now apply supported_test_false.
  - right. rewrite Ef. apply supported_test in Hd.
    assert (Hpre' : Forall (fun x => ~ supported x) pre).
    { eapply Forall_impl; [| exact Hpre].
      intros a Ha. now apply supported_test_false. }
    destruct Hd as (Hv & [Hp | Hp] & Hu).
    + exists pre, d, post, LitraGlow.
      repeat split; try assumption; try (now left); try (now left; split).
      unfold bind, getDeviceTypeByProductId. now rewrite Hp.
    + exists pre, d, post, LitraBeam.
      repeat split; try assumption; try (now right); try (now right; split).
      unfold bind, getDeviceTypeByProductId. now rewrite Hp.
Qed.

Example findDevice_picks_first_supported :
  findDevice
    [ {| vendorId := 0x046d; productId := 0xc52b; usagePage := 0xff00;
         path := "/dev/hidraw0" |};
      {| vendorId := 0x046d; productId := 0xc901; usagePage := 0x0001;
         path := "/dev/hidraw1" |};
      {| vendorId := 0x046d; productId := 0xc901; usagePage := 0xff43;
         path := "/dev/hidraw2" |};
      {| vendorId := 0x046d; productId := 0xc900; usagePage := 0xff43;
         path := "/dev/hidraw3" |} ] []
  = (Returned (Some {| type := LitraBeam; hid := HID_new "/dev/hidraw2" |}), []).
Proof. reflexivity. Qed.

Example findDevice_none_supported :
  findDevice
    [ {| vendorId := 0x046d; productId := 0xc52b; usagePage := 0xff00;
         path := "/dev/hidraw0" |};
      {| vendorId := 0x05ac; productId := 0xc900; usagePage := 0xff43;
         path := "/dev/hidraw1" |} ] []
  = (Returned None, []).
Proof. reflexivity. Qed.

(** * Further properties of the driver

    Everything below holds for any implementation of the helpers of
    [./utils]: it is read off [driver.js] alone. *)

(** ** [getDeviceTypeByProductId] and [PRODUCT_IDS] *)

(** X1.  The switch of [getDeviceTypeByProductId] and the list
    [PRODUCT_IDS] that [findDevice] filters with agree: the function
    returns a device type exactly for the product ids of the list, and
    throws 'Unknown device type' exactly for the others.  It writes
    nothing either way. *)
Theorem getDeviceTypeByProductId_agrees_with_PRODUCT_IDS
    (productId : Z) (w : World) :
  (includes PRODUCT_IDS productId = true
   <-> exists t, getDeviceTypeByProductId productId w = (Returned t, w))
  /\ (includes PRODUCT_IDS productId = false
      <-> getDeviceTypeByProductId productId w
          = (Threw "Unknown device type", w)).
Proof.
  unfold includes, PRODUCT_IDS, getDeviceTypeByProductId. simpl.
  destruct (productId =? 51456)%Z; simpl;
    [| destruct (productId =? 51457)%Z; simpl ];
    (split; split; intros H;
     try reflexivity; try discriminate H;
     try (eexists; reflexivity);
     try (destruct H as [t H]; discriminate H)).
Qed.

(** ** [findDevice] over a longer enumeration *)

Lemma find_app_first {A : Type} (f : A -> bool) (l1 l2 : list A) :
  find f (l1 ++ l2)
  = match find f l1 with
    | Some x => Some x
    | None => find f l2
    end.
Proof.
  induction l1 as [| a l1 IH]; simpl; [reflexivity |].
  now destruct (f a).
Qed.

(** X2.  Searching two enumerations one after the other: the result
    for [l1 ++ l2] is the result for [l1] unless that is [null], in
    which case it is the result for [l2].  Entries that follow a
    supported one are never looked at. *)
Theorem findDevice_app (l1 l2 : list DeviceInfo) (w : World) :
  findDevice (l1 ++ l2) w
  = match findDevice l1 w with
    | (Returned None, _) => findDevice l2 w
    | found => found
    end.
Proof.
  unfold findDevice. cbv zeta. rewrite find_app_first.
  match goal with
  | |- context [find ?f l1] => destruct (find f l1) as [d |] eqn:E
  end.
  - unfold bind, getDeviceTypeByProductId.
    destruct (productId d =? 51456)%Z; [reflexivity |].
    destruct (productId d =? 51457)%Z; reflexivity.
  - reflexivity.
Qed.

(** X3.  An entry that is not a supported light can be dropped from
    the enumeration, wherever it stands, without changing what
    [findDevice] returns. *)
Theorem findDevice_skips_unsupported
    (l1 l2 : list DeviceInfo) (e : DeviceInfo) (w : World) :
  ~ supported e ->
  findDevice (l1 ++ e :: l2) w = findDevice (l1 ++ l2) w.
Proof.
  intros He. apply supported_test_false in He.
  unfold findDevice. cbv zeta. rewrite !find_app_first. cbn [find].
  now rewrite He.
Qed.

Lemma findDevice_skips_unsupported_witness :
  findDevice
    [ {| vendorId := 0x046d; productId := 0xc900; usagePage := 0x0001;
         path := "/dev/hidraw0" |};
      {| vendorId := 0x046d; productId := 0xc900; usagePage := 0xff43;
         path := "/dev/hidraw1" |} ] []
  = findDevice
      [ {| vendorId := 0x046d; productId := 0xc900; usagePage := 0xff43;
           path := "/dev/hidraw1" |} ] [].
Proof.
  apply (findDevice_skips_unsupported []
           [ {| vendorId := 0x046d; productId := 0xc900; usagePage := 0xff43;
                path := "/dev/hidraw1" |} ]
           {| vendorId := 0x046d; productId := 0xc900; usagePage := 0x0001;
              path := "/dev/hidraw0" |} []).
  unfold supported. simpl. intros (_ & _ & H). discriminate H.
Defined.

(** ** The bounds accessors and the setters *)

(** X4.  What the four bounds accessors return for a device is accepted
    by the absolute setters for that device: both ends of each range
    can be set, and each call writes one report and throws nothing. *)
Theorem bounds_of_accessors_are_accepted
    {U : Utils} (device : Device) (w : World) :
  fst (setTemperatureInKelvin device
         (inject_Z (getMinimumTemperatureInKelvinForDevice device)) w)
  = Returned tt
  /\ fst (setTemperatureInKelvin device
            (inject_Z (getMaximumTemperatureInKelvinForDevice device)) w)
     = Returned tt
  /\ fst (setBrightnessInLumen device
            (inject_Z (getMinimumBrightnessInLumenForDevice device)) w)
     = Returned tt
  /\ fst (setBrightnessInLumen device
            (inject_Z (getMaximumBrightnessInLumenForDevice device)) w)
     = Returned tt.
Proof.
  repeat match goal with |- _ /\ _ => split end.
  - rewrite setTemperatureInKelvin_inside;
      [reflexivity | apply Number_isInteger_inject_Z |].
    now destruct device as [[|] h].
  - rewrite setTemperatureInKelvin_inside;
      [reflexivity | apply Number_isInteger_inject_Z |].
    now destruct device as [[|] h].
  - rewrite setBrightnessInLumen_inside;
      [reflexivity | apply Number_isInteger_inject_Z |].
    now destruct device as [[|] h].
  - rewrite setBrightnessInLumen_inside;
      [reflexivity | apply Number_isInteger_inject_Z |].
    now destruct device as [[|] h].
Qed.

(** X5.  [setBrightnessPercentage device 0] is [setBrightnessInLumen
    device] at the minimum brightness of the device type: the branch
    for zero does not call the interpolation helper, and the call
    returns after writing the one report made from the minimum. *)
Theorem setBrightnessPercentage_zero_is_minimum
    {U : Utils} (device : Device) (w : World) :
  setBrightnessPercentage device 0 w
  = setBrightnessInLumen device
      (inject_Z (getMinimumBrightnessInLumenForDevice device)) w
  /\ setBrightnessPercentage device 0 w
     = (Returned tt,
        w ++ [(hid_path (hid device),
               padRight
                 [0x11; 0xff; 0x04; 0x4c; 0x00;
                  inject_Z (getMinimumBrightnessInLumenForDevice device)]
                 20 0x00)]).
Proof.
  assert (E : setBrightnessPercentage device 0 w
              = setBrightnessInLumen device
                  (inject_Z (getMinimumBrightnessInLumenForDevice device)) w).
  { now rewrite setBrightnessPercentage_delegates. }
  split; [exact E |]. rewrite E.
  apply setBrightnessInLumen_inside.
  - apply Number_isInteger_inject_Z.
  - now destruct device as [[|] h].
Qed.

(** X6.  The colour temperature is validated the same way for every
    device: two calls of [setTemperatureInKelvin] with the same value
    complete alike, both returning or both throwing the same message,
    whatever the types and handles of the two devices and whatever was
    written before. *)
Theorem setTemperatureInKelvin_same_for_every_device
    {U : Utils} (device1 device2 : Device) (value : number) (w1 w2 : World) :
  fst (setTemperatureInKelvin device1 value w1)
  = fst (setTemperatureInKelvin device2 value w2).
Proof.
  unfold setTemperatureInKelvin.
  destruct (Number_isInteger value); simpl; [| reflexivity].
  destruct device1 as [[|] h1], device2 as [[|] h2];
    unfold getMinimumTemperatureInKelvinForDevice,
      getMaximumTemperatureInKelvinForDevice; cbn [type];
    cbn [MINIMUM_TEMPERATURE_IN_KELVIN_BY_DEVICE_TYPE
           MAXIMUM_TEMPERATURE_IN_KELVIN_BY_DEVICE_TYPE];
    destruct (lt value (inject_Z 2700) || gt value (inject_Z 6500));
    reflexivity.
Qed.

(** ** Where the errors of a percentage setter come from *)





(** ** One call, at most one report *)

(** X9.  A call that returns has appended exactly one report to the
    trace, through the handle of the device it was given, and has left
    the earlier writes as they were: [turnOn] and [turnOff] always, the
    four setters whenever they do not throw.  No function writes twice,
    and none writes through another handle. *)
Theorem returning_call_writes_one_report
    {U : Utils} (device : Device) (value : number) (w : World) :
  (exists r, turnOn device w = (Returned tt, w ++ [(hid_path (hid device), r)]))
  /\ (exists r,
         turnOff device w = (Returned tt, w ++ [(hid_path (hid device), r)]))
  /\ (forall a w', setTemperatureInKelvin device value w = (Returned a, w') ->
                   exists r, w' = w ++ [(hid_path (hid device), r)])
  /\ (forall a w', setBrightnessInLumen device value w = (Returned a, w') ->
                   exists r, w' = w ++ [(hid_path (hid device), r)])
  /\ (forall a w', setTemperaturePercentage device value w = (Returned a, w') ->
                   exists r, w' = w ++ [(hid_path (hid device), r)])
  /\ (forall a w', setBrightnessPercentage device value w = (Returned a, w') ->
                   exists r, w' = w ++ [(hid_path (hid device), r)]).
Proof.
  assert (HT : forall v a w',
             setTemperatureInKelvin device v w = (Returned a, w') ->
             exists r, w' = w ++ [(hid_path (hid device), r)]).
  { intros v a w' H.
    destruct (setTemperatureInKelvin_outcome device v w)
      as [E | [E | [r E]]]; rewrite E in H; try discriminate H.
    exists r. congruence. }
  assert (HB : forall v a w',
             setBrightnessInLumen device v w = (Returned a, w') ->
             exists r, w' = w ++ [(hid_path (hid device), r)]).
  { intros v a w' H.
    destruct (setBrightnessInLumen_outcome device v w)
      as [E | [E | [r E]]]; rewrite E in H; try discriminate H.
    exists r. congruence. }
  repeat match goal with |- _ /\ _ => split end.
  - eexists. reflexivity.
  - eexists. reflexivity.
  - apply HT.
  - apply HB.
  - intros a w' H.
    destruct (lt value 0 || gt value 100) eqn:Ho.
    + rewrite (setTemperaturePercentage_outside _ _ _ Ho) in H. discriminate H.
    + rewrite (setTemperaturePercentage_delegates _ _ _ Ho) in H.
      now apply HT in H.
  - intros a w' H.
    destruct (lt value 0 || gt value 100) eqn:Ho.
    + rewrite (setBrightnessPercentage_outside _ _ _ Ho) in H. discriminate H.
    + rewrite (setBrightnessPercentage_delegates _ _ _ Ho) in H.
      now apply HB in H.
Qed.

Lemma returning_call_writes_one_report_witness :
  exists r,
    snd (setBrightnessPercentage glow 0 [("/dev/hidraw0"%string, [0x11])])
    = [("/dev/hidraw0"%string, [0x11])] ++ [(hid_path (hid glow), r)].
Proof.
  pose proof (returning_call_writes_one_report glow 0
                [("/dev/hidraw0"%string, [0x11])]) as (_ & _ & _ & _ & _ & HB).
  destruct (setBrightnessPercentage glow 0 [("/dev/hidraw0"%string, [0x11])])
    as [c w'] eqn:E.
  destruct c as [[] | msg]; [| discriminate E].
  exact (HB tt w' eq_refl).
Defined.
